(** * Lifecycle controller of the Netbox.Wallet Qt front end

    A shallow embedding of [src/qt/netboxwallet.cpp]: the executor
    [BitcoinCore] that runs engine start-up, shutdown and restart on the
    worker thread, the controller [BitcoinApplication] that lives on the
    interactive thread, and the start-up sequence of [main].

    Every slot is a program in a small monad that threads the fields of the
    object it belongs to, records the calls it makes to its collaborators
    (engine, window, Qt) in a trace, and can stop early: by a C++ exception,
    by dereferencing a null pointer, by [exit], or because a loop was cut
    off by its fuel.  The collaborators are not part of the file; what they
    answer is read from an environment [Env]. *)

From Stdlib Require Import List ZArith String Bool Arith Lia.
Import ListNotations.
Local Open Scope string_scope.
Local Open Scope Z_scope.
Local Open Scope list_scope.

(** ** Collaborators and the trace *)

(** A C++ exception in flight: one derived from [std::exception] (with its
    [what()]), or anything else, which only [catch (...)] sees. *)
Inductive Exn : Type :=
| StdException (what : string)
| OtherException.

(** Objects the controller allocates with [new] and releases with [delete]. *)
Inductive Obj : Type :=
| OApplication | OWindow | OPollShutdownTimer | OCoreThread | OExecutor
| OOptionsModel | OClientModel | OWalletModel | OPaymentServer
| OSplashScreen | OShutdownMonitor | OToolTipFilter.

(** Qt signals of the two classes. *)
Inductive Signal : Type :=
| initializeResult_sig (retval : Z)
| runawayException_sig (message : string)
| requestedInitialize_sig
| requestedShutdown_sig
| stopThread_sig
| splashFinished_sig
| applicationInitialized_sig.

(** Calls that leave the file. *)
Inductive ExtCall : Type :=
(* engine, init.h *)
| CAppInit2 | CInterrupt | CPrepareShutdown | CShutdown | CStartShutdown
| CNetCleanup
(* process and event loops *)
| CStartDetached (program : string) (args : list string)
| CQuit | CApplicationExit (code : Z)
| CShutdownCompleted | CProcessEvents | CMilliSleep (ms : Z)
| CExec | CThreadStart | CThreadWait
(* main window *)
| CWindowHide | CWindowShow | CWindowShowMinimized
| CWindowSetClientModel (model : bool)
| CWindowRemoveAllWallets | CWindowAddWallet | CWindowSetCurrentWallet
| CShowShutdownWindow | CToggleForegroundApp
(* poll timer *)
| CTimerStart (ms : Z) | CTimerStop
(* payment server *)
| CLoadRootCAs | CSetOptionsModel | CUiReadySingleShot (ms : Z)
| CIpcParseCommandLine | CIpcSendCommandLine | CIpcSendCommand (cmd : string)
(* signal/slot wiring *)
| CConnect (sender : Obj) (signal : string) (receiver : Obj) (slot : string)
| CMoveToThread
(* start-up of main *)
| CInstallFaultHandlers | CSetupEnvironment | CParseParameters
| CInitResources | CDisableForegroundTransform | CSetAttributes | CRegisterMetaTypes | CSetApplicationIds
| CInitTranslations | CHelpMessage | CPickDataDirectory | CIsDirectory
| CReadConfigFile | CSelectParams | CNetworkStyle | CMasternodeConfigRead
| CAllowSetForegroundWindow | CInstallEventFilter | CInstallNativeEventFilter
| CInstallMessageHandler | CRegisterShutdownBlockReason
| CSplashShow | CSettingsClear
(* dialogs *)
| CShowErrorMessage (message : string)
| CMessageBoxCritical (message : string)
| CLogPrintf (message : string).

Inductive Event : Type :=
| Call (c : ExtCall)
| Emit (s : Signal)
| New (o : Obj)
| Delete (o : Obj)
| PrintExceptionContinue (e : option string) (thread : string).

Definition Trace := list Event.

(** What the outside world answers.  The three shutdown predicates of
    [init.h] are plain flag reads; [throws] says which external call, if
    any, raises. *)
Record Env : Type := {
  (* build configuration, fixed by the preprocessor *)
  ENABLE_WALLET : bool;
  Q_OS_WIN : bool;
  Q_OS_MAC : bool;
  WIN32 : bool;
  (* engine *)
  throws : ExtCall -> option Exn;
  AppInit2_result : Z;
  ResyncNeeded : bool;
  ShutdownRequested : bool;
  RestartRequested : bool;
  pwalletMain : bool;
  (* value of the global strMiscWarning once PrintExceptionContinue ran *)
  strMiscWarning : option string -> string -> string;
  (* Qt and utilities *)
  buildParameterlist : string -> list string;
  applicationFilePath : string;
  GetBoolArg : string -> bool -> bool;
  mapArgs_count : string -> bool;
  isShuttingDown : bool;
  resetSettings : bool;
  (* answers met by main *)
  pickDataDirectory : bool;
  is_directory : bool;
  SelectParamsFromCommandLine : bool;
  masternodeConfig_read : bool;
  ipcSendCommandLine : bool;
  ipcSendCommand : string -> bool
}.

(** ** The monad *)

Inductive Stop : Type :=
| Thrown (e : Exn)
| NullDeref
| ProcessExit (code : Z)
| OutOfFuel.

Inductive Outcome (A : Type) : Type :=
| Ret (a : A)
| Halt (why : Stop).
Arguments Ret {A} a.
Arguments Halt {A} why.

Record Run (S A : Type) : Type := mkRun {
  trace : Trace;
  final : S;
  outcome : Outcome A
}.
Arguments mkRun {S A} trace final outcome.
Arguments trace {S A} r.
Arguments final {S A} r.
Arguments outcome {S A} r.

Definition M (S A : Type) : Type := S -> Run S A.

Definition ret {S A} (a : A) : M S A := fun s => mkRun [] s (Ret a).

Definition bind {S A B} (m : M S A) (k : A -> M S B) : M S B :=
  fun s =>
    match m s with
    | mkRun tr s' (Ret a) =>
        match k a s' with
        | mkRun tr' s'' o => mkRun (tr ++ tr') s'' o
        end
    | mkRun tr s' (Halt w) => mkRun tr s' (Halt w)
    end.

Declare Scope prog_scope.
Delimit Scope prog_scope with prog.
Notation "x <- m ;; k" := (bind m (fun x => k))
  (at level 61, m at next level, right associativity) : prog_scope.
Notation "m ;; k" := (bind m (fun _ => k))
  (at level 61, right associativity) : prog_scope.
Local Open Scope prog_scope.

Definition get {S} : M S S := fun s => mkRun [] s (Ret s).
Definition modify {S} (f : S -> S) : M S unit := fun s => mkRun [] (f s) (Ret tt).
Definition log {S} (e : Event) : M S unit := fun s => mkRun [e] s (Ret tt).
Definition halt {S A} (w : Stop) : M S A := fun s => mkRun [] s (Halt w).
Definition when {S} (b : bool) (m : M S unit) : M S unit := if b then m else ret tt.

(** [try { m } catch ... { h e }].  Only exceptions are caught; the fields
    keep what [m] wrote before it threw.  A handler that does not match [e]
    rethrows it with [halt (Thrown e)]. *)
Definition try_catch {S A} (m : M S A) (h : Exn -> M S A) : M S A :=
  fun s =>
    match m s with
    | mkRun tr s' (Halt (Thrown e)) =>
        match h e s' with
        | mkRun tr' s'' o => mkRun (tr ++ tr') s'' o
        end
    | r => r
    end.

(** The pointer a handler receives: [&e] under [catch (std::exception& e)],
    [NULL] under [catch (...)]. *)
Definition exception_ptr (e : Exn) : option string :=
  match e with
  | StdException w => Some w
  | OtherException => None
  end.

Definition EXIT_FAILURE : Z := 1.

(** An external call: it is entered, and returns or throws as [env] says. *)
Definition call {S} (env : Env) (c : ExtCall) : M S unit :=
  log (Call c) ;;
  match throws env c with
  | Some e => halt (Thrown e)
  | None => ret tt
  end.

Definition emit {S} (s : Signal) : M S unit := log (Emit s).

(** ** BitcoinCore, the executor on the worker thread *)

Module BitcoinCore.

Record t : Type := mk {
  execute_restart : bool
}.

(** [BitcoinCore::BitcoinCore() : QObject() {}] initialises no member:
    [execute_restart] keeps the indeterminate value [junk] of its storage. *)
Definition new (junk : bool) : t := mk junk.

Section Slots.

Variable env : Env.

Definition handleRunawayException (e : option string) : M t unit :=
  log (PrintExceptionContinue e "Runaway exception") ;;
  emit (runawayException_sig (strMiscWarning env e "Runaway exception")).

Definition restart (args : list string) : M t unit :=
  this <- get ;;
  if execute_restart this then
    modify (fun _ => mk false) ;;
    try_catch
      (call env CInterrupt ;;
       call env CPrepareShutdown ;;
       call env CNetCleanup ;;
       call env (CStartDetached (applicationFilePath env) args) ;;
       call env CQuit ;;
       when (Q_OS_WIN env) (call env CShutdownCompleted))
      (fun e => handleRunawayException (exception_ptr e))
  else ret tt.

Definition initialize : M t unit :=
  modify (fun _ => mk true) ;;
  try_catch
    (call env CAppInit2 ;;
     let rv := AppInit2_result env in
     if ResyncNeeded env then
       (if negb (ShutdownRequested env)
        then restart (buildParameterlist env "-resync")
        else ret tt)
     else emit (initializeResult_sig rv))
    (fun e => handleRunawayException (exception_ptr e)).

Definition shutdown : M t unit :=
  if RestartRequested env then ret tt
  else
    try_catch
      (call env CInterrupt ;;
       call env CShutdown ;;
       call env CQuit ;;
       when (Q_OS_WIN env) (call env CShutdownCompleted))
      (fun e => handleRunawayException (exception_ptr e)).

End Slots.

(** Requests reach the executor through queued connections and are served
    one after the other; the engine may answer each one differently. *)
Inductive Request : Type :=
| Initialize
| Shutdown
| Restart (args : list string).

Definition serve (env : Env) (r : Request) : M t unit :=
  match r with
  | Initialize => initialize env
  | Shutdown => shutdown env
  | Restart args => restart env args
  end.

Fixpoint serve_all (reqs : list (Env * Request)) : M t unit :=
  match reqs with
  | [] => ret tt
  | (env, r) :: rest => serve env r ;; serve_all rest
  end.

End BitcoinCore.

(** ** BitcoinApplication, the controller on the interactive thread *)

Module BitcoinApplication.

(** Pointer members are kept as "is non-null"; the poll timer also carries
    whether it is running.  [shutdownMonitor] exists under Q_OS_WIN only,
    [paymentServer] and [walletModel] under ENABLE_WALLET only. *)
Record t : Type := mk {
  coreThread : bool;
  optionsModel : bool;
  clientModel : bool;
  window : bool;
  pollShutdownTimer : option bool;
  shutdownMonitor : bool;
  paymentServer : bool;
  walletModel : bool;
  shutdownAllowed : bool;
  returnValue : Z
}.

Definition set_coreThread (v : bool) (a : t) : t :=
  mk v (optionsModel a) (clientModel a) (window a) (pollShutdownTimer a)
     (shutdownMonitor a) (paymentServer a) (walletModel a) (shutdownAllowed a)
     (returnValue a).
Definition set_optionsModel (v : bool) (a : t) : t :=
  mk (coreThread a) v (clientModel a) (window a) (pollShutdownTimer a)
     (shutdownMonitor a) (paymentServer a) (walletModel a) (shutdownAllowed a)
     (returnValue a).
Definition set_clientModel (v : bool) (a : t) : t :=
  mk (coreThread a) (optionsModel a) v (window a) (pollShutdownTimer a)
     (shutdownMonitor a) (paymentServer a) (walletModel a) (shutdownAllowed a)
     (returnValue a).
Definition set_window (v : bool) (a : t) : t :=
  mk (coreThread a) (optionsModel a) (clientModel a) v (pollShutdownTimer a)
     (shutdownMonitor a) (paymentServer a) (walletModel a) (shutdownAllowed a)
     (returnValue a).
Definition set_pollShutdownTimer (v : option bool) (a : t) : t :=
  mk (coreThread a) (optionsModel a) (clientModel a) (window a) v
     (shutdownMonitor a) (paymentServer a) (walletModel a) (shutdownAllowed a)
     (returnValue a).
Definition set_shutdownMonitor (v : bool) (a : t) : t :=
  mk (coreThread a) (optionsModel a) (clientModel a) (window a)
     (pollShutdownTimer a) v (paymentServer a) (walletModel a)
     (shutdownAllowed a) (returnValue a).
Definition set_paymentServer (v : bool) (a : t) : t :=
  mk (coreThread a) (optionsModel a) (clientModel a) (window a)
     (pollShutdownTimer a) (shutdownMonitor a) v (walletModel a)
     (shutdownAllowed a) (returnValue a).
Definition set_walletModel (v : bool) (a : t) : t :=
  mk (coreThread a) (optionsModel a) (clientModel a) (window a)
     (pollShutdownTimer a) (shutdownMonitor a) (paymentServer a) v
     (shutdownAllowed a) (returnValue a).
Definition set_shutdownAllowed (v : bool) (a : t) : t :=
  mk (coreThread a) (optionsModel a) (clientModel a) (window a)
     (pollShutdownTimer a) (shutdownMonitor a) (paymentServer a)
     (walletModel a) v (returnValue a).
Definition set_returnValue (v : Z) (a : t) : t :=
  mk (coreThread a) (optionsModel a) (clientModel a) (window a)
     (pollShutdownTimer a) (shutdownMonitor a) (paymentServer a)
     (walletModel a) (shutdownAllowed a) v.

(** The member initialiser list of the constructor. *)
Definition new : t :=
  mk false false false false None false false false true 0.

Definition getReturnValue (a : t) : Z := returnValue a.

Section Slots.

Variable env : Env.

(** [window->f()]: undefined when [window] is null. *)
Definition on_window (c : ExtCall) : M t unit :=
  this <- get ;;
  if window this then call env c else halt NullDeref.

Definition on_paymentServer (c : ExtCall) : M t unit :=
  this <- get ;;
  if paymentServer this then call env c else halt NullDeref.

Definition timer_start (ms : Z) : M t unit :=
  this <- get ;;
  match pollShutdownTimer this with
  | Some _ => call env (CTimerStart ms) ;; modify (set_pollShutdownTimer (Some true))
  | None => halt NullDeref
  end.

Definition timer_stop : M t unit :=
  this <- get ;;
  match pollShutdownTimer this with
  | Some _ => call env CTimerStop ;; modify (set_pollShutdownTimer (Some false))
  | None => halt NullDeref
  end.

(** [delete p] is a no-op on a null pointer. *)
Definition delete (present : bool) (o : Obj) : M t unit :=
  when present (log (Delete o)).

Definition createPaymentServer : M t unit :=
  log (New OPaymentServer) ;; modify (set_paymentServer true).

Definition createOptionsModel : M t unit :=
  log (New OOptionsModel) ;; modify (set_optionsModel true).

Definition createWindow : M t unit :=
  log (New OWindow) ;; modify (set_window true) ;;
  log (New OPollShutdownTimer) ;; modify (set_pollShutdownTimer (Some false)) ;;
  call env (CConnect OPollShutdownTimer "timeout()" OWindow "detectShutdown()") ;;
  call env (CConnect OWindow "requestedShutdown()" OApplication "requestShutdown()") ;;
  when (Q_OS_WIN env)
    (call env (CConnect OShutdownMonitor "requestedShutdown()" OWindow "requestShutdown()")) ;;
  timer_start 200.

Definition createSplashScreen : M t unit :=
  log (New OSplashScreen) ;;
  call env CSplashShow ;;
  call env (CConnect OApplication "splashFinished(QWidget*)" OSplashScreen "slotFinish(QWidget*)").

Definition startThread : M t unit :=
  this <- get ;;
  if coreThread this then ret tt
  else
    log (New OCoreThread) ;; modify (set_coreThread true) ;;
    log (New OExecutor) ;;
    call env CMoveToThread ;;
    call env (CConnect OExecutor "initializeResult(int)" OApplication "initializeResult(int)") ;;
    call env (CConnect OExecutor "runawayException(QString)" OApplication "handleRunawayException(QString)") ;;
    call env (CConnect OApplication "applicationInitialized()" OWindow "applicationInitialized()") ;;
    call env (CConnect OApplication "requestedInitialize()" OExecutor "initialize()") ;;
    call env (CConnect OApplication "requestedShutdown()" OExecutor "shutdown()") ;;
    call env (CConnect OWindow "requestedRestart(QStringList)" OExecutor "restart(QStringList)") ;;
    call env (CConnect OApplication "stopThread()" OExecutor "deleteLater()") ;;
    call env (CConnect OApplication "stopThread()" OCoreThread "quit()") ;;
    call env CThreadStart.

Definition requestInitialize : M t unit :=
  startThread ;;
  emit requestedInitialize_sig.

(** [processEvents()] runs whatever handlers the event loop has pending;
    [pending] is what it finds, nothing when the list is exhausted. *)
Definition processEvents (pending : list (M t unit)) : M t unit :=
  call env CProcessEvents ;;
  match pending with
  | h :: _ => h
  | [] => ret tt
  end.

(** [while (!shutdownAllowed) { processEvents(); MilliSleep(100); }];
    [events] holds the handlers found by each successive [processEvents]. *)
Fixpoint waitShutdownAllowed (fuel : nat) (events : list (M t unit)) : M t unit :=
  this <- get ;;
  if shutdownAllowed this then ret tt
  else
    match fuel with
    | O => halt OutOfFuel
    | S fuel' =>
        processEvents events ;;
        call env (CMilliSleep 100) ;;
        waitShutdownAllowed fuel' (tl events)
    end.

Definition requestShutdown (fuel : nat) (events : list (M t unit)) : M t unit :=
  waitShutdownAllowed fuel events ;;
  startThread ;;
  when (Q_OS_MAC env)
    (when (GetBoolArg env "-hide" false) (call env CToggleForegroundApp)) ;;
  on_window CWindowHide ;;
  on_window (CWindowSetClientModel false) ;;
  timer_stop ;;
  when (ENABLE_WALLET env)
    (on_window CWindowRemoveAllWallets ;;
     this <- get ;;
     delete (walletModel this) OWalletModel ;;
     modify (set_walletModel false)) ;;
  this <- get ;;
  delete (clientModel this) OClientModel ;;
  modify (set_clientModel false) ;;
  (if Q_OS_WIN env then
     if negb (isShuttingDown env) then call env CShowShutdownWindow
     else call env (CLogPrintf "System shutdown")
   else call env CShowShutdownWindow) ;;
  emit requestedShutdown_sig.

Definition initializeResult (retval : Z) : M t unit :=
  modify (set_shutdownAllowed false) ;;
  if ShutdownRequested env then
    modify (set_shutdownAllowed true)
  else
    modify (set_returnValue (if retval =? 0 then 1 else 0)) ;;
    (if negb (retval =? 0) then
       when (ENABLE_WALLET env)
         (call env CLoadRootCAs ;;
          on_paymentServer CSetOptionsModel) ;;
       log (New OClientModel) ;; modify (set_clientModel true) ;;
       on_window (CWindowSetClientModel true) ;;
       when (ENABLE_WALLET env)
         (when (pwalletMain env)
            (log (New OWalletModel) ;; modify (set_walletModel true) ;;
             on_window CWindowAddWallet ;;
             on_window CWindowSetCurrentWallet ;;
             call env (CConnect OWalletModel "coinsSent" OPaymentServer "fetchPaymentACK"))) ;;
       emit applicationInitialized_sig ;;
       (if GetBoolArg env "-min" false then on_window CWindowShowMinimized
        else if negb (GetBoolArg env "-hide" false) then on_window CWindowShow
        else ret tt) ;;
       emit splashFinished_sig ;;
       when (ENABLE_WALLET env)
         (call env (CConnect OPaymentServer "receivedPaymentRequest" OWindow "handlePaymentRequest") ;;
          call env (CConnect OPaymentServer "receivedShowRequest" OWindow "showNormalIfMinimized") ;;
          call env (CConnect OWindow "receivedURI" OPaymentServer "handleURIOrFile") ;;
          call env (CConnect OPaymentServer "message" OWindow "message") ;;
          call env (CUiReadySingleShot 100))
     else call env CStartShutdown) ;;
    modify (set_shutdownAllowed true).

(** [showErrorMessage] is one dialog, drawn by MessageBoxW or by QMessageBox.
    The unqualified [exit(EXIT_FAILURE)] stands in a member function of a
    class derived from QApplication, where the name is found in class scope:
    it is the static [QCoreApplication::exit(int)], which tells the event
    loop to leave with that return code and returns to its caller. *)
Definition handleRunawayException (message : string) : M t unit :=
  call env (CShowErrorMessage message) ;;
  call env (CApplicationExit EXIT_FAILURE).

(** The destructor.  It assigns [window], [paymentServer] and
    [optionsModel] only; [pollShutdownTimer] keeps the value it had. *)
Definition destroy : M t unit :=
  this <- get ;;
  when (coreThread this) (emit stopThread_sig ;; call env CThreadWait) ;;
  delete (window this) OWindow ;;
  modify (set_window false) ;;
  when (ENABLE_WALLET env)
    (delete (paymentServer this) OPaymentServer ;; modify (set_paymentServer false)) ;;
  when (optionsModel this && resetSettings env) (call env CSettingsClear) ;;
  delete (optionsModel this) OOptionsModel ;;
  modify (set_optionsModel false).

End Slots.

End BitcoinApplication.

(** ** main *)

Section Main.

Variable env : Env.

Import BitcoinApplication.

(** [app.exec()]: the interactive event loop dispatches [loop], the handlers
    that become due before the loop is told to quit. *)
Fixpoint dispatch (loop : list (M t unit)) : M t unit :=
  match loop with
  | [] => ret tt
  | h :: rest => h ;; dispatch rest
  end.

Definition exec (loop : list (M t unit)) : M t unit :=
  call env CExec ;; dispatch loop.

Definition setShutdownMonitor : M t unit := modify (set_shutdownMonitor true).

(** Step 9 of [main], the guarded block that ends in [app.exec()]. *)
Definition main_gui (loop : list (M t unit)) : M t unit :=
  try_catch
    (createWindow env ;;
     requestInitialize env ;;
     when (Q_OS_WIN env) (call env CRegisterShutdownBlockReason) ;;
     exec loop)
    (fun e =>
       log (PrintExceptionContinue (exception_ptr e) "main") ;;
       handleRunawayException env (strMiscWarning env (exception_ptr e) "main")).

(** Steps 8 and 9: IPC towards a running instance, then the GUI. *)
Definition main_ipc_and_gui (loop : list (M t unit)) : M t Z :=
  wallet_rc <-
    (if ENABLE_WALLET env then
       call env CMasternodeConfigRead ;;
       if negb (masternodeConfig_read env) then
         call env (CMessageBoxCritical "Error reading masternode configuration file") ;;
         ret (Some 0)
       else
         call env CIpcSendCommandLine ;;
         (if ipcSendCommandLine env then halt (ProcessExit 0) else ret tt) ;;
         when (WIN32 env) (call env CAllowSetForegroundWindow) ;;
         call env (CIpcSendCommand "nbx:show") ;;
         (if ipcSendCommand env "nbx:show" then halt (ProcessExit 0) else ret tt) ;;
         createPaymentServer ;;
         ret None
     else ret None) ;;
  match wallet_rc with
  | Some rc => ret rc
  | None =>
      log (New OToolTipFilter) ;; call env CInstallEventFilter ;;
      when (Q_OS_WIN env)
        (log (New OShutdownMonitor) ;; setShutdownMonitor ;;
         call env CInstallNativeEventFilter) ;;
      call env CInstallMessageHandler ;;
      createOptionsModel ;;
      when (GetBoolArg env "-splash" true && negb (GetBoolArg env "-min" false))
        (createSplashScreen env) ;;
      main_gui loop ;;
      this <- get ;;
      ret (getReturnValue this)
  end.

(** Steps 5 to 7: data directory, configuration file, network. *)
Definition main_datadir (loop : list (M t unit)) : M t Z :=
  call env CPickDataDirectory ;;
  if negb (pickDataDirectory env) then ret 0
  else
    call env CIsDirectory ;;
    if negb (is_directory env) then
      call env (CMessageBoxCritical "Error: Specified data directory does not exist.") ;;
      ret 1
    else
      bad_conf <-
        try_catch (call env CReadConfigFile ;; ret false)
          (fun e =>
             match e with
             | StdException _ =>
                 call env (CMessageBoxCritical "Error: Cannot parse configuration file") ;;
                 ret true
             | OtherException => halt (Thrown e)
             end) ;;
      if (bad_conf : bool) then ret 0
      else
        call env CSelectParams ;;
        if negb (SelectParamsFromCommandLine env) then
          call env (CMessageBoxCritical "Error: Invalid combination of -regtest and -testnet.") ;;
          ret 1
        else
          when (ENABLE_WALLET env) (call env CIpcParseCommandLine) ;;
          call env CNetworkStyle ;;
          call env CInitTranslations ;;
          main_ipc_and_gui loop.

(** [int main(int argc, char* argv[])].  [app] is a local of [main]: every
    [return] runs its destructor, [exit] does not. *)
Definition main (loop : list (M t unit)) : M t Z :=
  call env CInstallFaultHandlers ;;
  call env CSetupEnvironment ;;
  call env CParseParameters ;;
  call env CInitResources ;;
  when (Q_OS_MAC env)
    (when (GetBoolArg env "-hide" false) (call env CDisableForegroundTransform)) ;;
  log (New OApplication) ;; modify (fun _ => new) ;;
  call env CSetAttributes ;;
  call env CRegisterMetaTypes ;;
  call env CSetApplicationIds ;;
  call env CInitTranslations ;;
  rc <-
    (if mapArgs_count env "-?" || mapArgs_count env "-help"
        || mapArgs_count env "-version"
     then call env CHelpMessage ;; ret 1
     else main_datadir loop) ;;
  destroy env ;;
  ret rc.

End Main.

(** ** Observations on traces *)

Fixpoint count (p : Event -> bool) (tr : Trace) : nat :=
  match tr with
  | [] => O
  | e :: rest => ((if p e then 1 else 0) + count p rest)%nat
  end.

(** The five steps of the relaunch action of [BitcoinCore::restart]. *)
Inductive RelaunchStep : Type :=
| StepInterrupt | StepPrepareShutdown | StepNetCleanup | StepStartDetached
| StepQuit.

Definition is_step (k : RelaunchStep) (e : Event) : bool :=
  match k, e with
  | StepInterrupt, Call CInterrupt => true
  | StepPrepareShutdown, Call CPrepareShutdown => true
  | StepNetCleanup, Call CNetCleanup => true
  | StepStartDetached, Call (CStartDetached _ _) => true
  | StepQuit, Call CQuit => true
  | _, _ => false
  end.

Definition is_relaunch (e : Event) : bool := is_step StepStartDetached e.

Definition is_initializeResult (e : Event) : bool :=
  match e with Emit (initializeResult_sig _) => true | _ => false end.

Definition is_runawayException (e : Event) : bool :=
  match e with Emit (runawayException_sig _) => true | _ => false end.

Definition is_requestedShutdown (e : Event) : bool :=
  match e with Emit requestedShutdown_sig => true | _ => false end.

Definition is_applicationInitialized (e : Event) : bool :=
  match e with Emit applicationInitialized_sig => true | _ => false end.

(** [window->show()] or [window->showMinimized()]. *)
Definition shows_window (e : Event) : bool :=
  match e with
  | Call CWindowShow | Call CWindowShowMinimized => true
  | _ => false
  end.

(** [new ClientModel] or [new WalletModel]. *)
Definition constructs_model (e : Event) : bool :=
  match e with
  | New OClientModel | New OWalletModel => true
  | _ => false
  end.

Definition is_StartShutdown (e : Event) : bool :=
  match e with Call CStartShutdown => true | _ => false end.

(** The error dialog, or anything that ends the process. *)
Definition is_error_dialog (e : Event) : bool :=
  match e with
  | Call (CShowErrorMessage _) | Call (CMessageBoxCritical _) => true
  | _ => false
  end.

Definition is_processEvents (e : Event) : bool :=
  match e with Call CProcessEvents => true | _ => false end.

Definition is_timer_stop (e : Event) : bool :=
  match e with Call CTimerStop => true | _ => false end.

Definition restart_requests (reqs : list (Env * list string))
  : list (Env * BitcoinCore.Request) :=
  map (fun ea => (fst ea, BitcoinCore.Restart (snd ea))) reqs.


(** No external call raises. *)
Definition quiet (env : Env) : Prop := forall c, throws env c = None.

(** ** Sample environments *)

(** A Linux build with the wallet enabled, default command line, a data
    directory in place and no other instance unless [probe] says so. *)
Definition sample_env (resync shutdown_requested : bool) (rv : Z)
    (probe : bool) (thr : ExtCall -> option Exn) : Env :=
  {| ENABLE_WALLET := true; Q_OS_WIN := false; Q_OS_MAC := false; WIN32 := false;
     throws := thr;
     AppInit2_result := rv;
     ResyncNeeded := resync;
     ShutdownRequested := shutdown_requested;
     RestartRequested := false;
     pwalletMain := true;
     strMiscWarning := fun e thread =>
       match e with
       | Some what => String.append "EXCEPTION: " (String.append what (String.append " in " thread))
       | None => String.append "UNKNOWN EXCEPTION in " thread
       end;
     buildParameterlist := fun arg => [arg];
     applicationFilePath := "nbx-qt";
     GetBoolArg := fun _ dflt => dflt;
     mapArgs_count := fun _ => false;
     isShuttingDown := false;
     resetSettings := false;
     pickDataDirectory := true;
     is_directory := true;
     SelectParamsFromCommandLine := true;
     masternodeConfig_read := true;
     ipcSendCommandLine := false;
     ipcSendCommand := fun _ => probe |}.

Definition no_throw : ExtCall -> option Exn := fun _ => None.

(** [AppInit2] returned 1, nothing pending. *)
Definition env_init_ok : Env := sample_env false false 1 false no_throw.
(** [AppInit2] returned 0. *)
Definition env_init_failed : Env := sample_env false false 0 false no_throw.
(** [AppInit2] returned 0 after the user had already asked to quit. *)
Definition env_failed_while_quitting : Env := sample_env false true 0 false no_throw.
(** Resynchronisation is needed and nobody asked to quit. *)
Definition env_resync : Env := sample_env true false 1 false no_throw.
(** Resynchronisation is needed, but a shutdown was requested meanwhile. *)
Definition env_resync_while_quitting : Env := sample_env true true 1 false no_throw.
(** Another instance answers the "nbx:show" probe. *)
Definition env_second_instance : Env := sample_env false false 1 true no_throw.
(** The engine's shutdown step raises in the middle of a relaunch. *)
Definition env_shutdown_throws : Env :=
  sample_env false false 1 false
    (fun c => match c with
              | CPrepareShutdown => Some (StdException "db closed")
              | CShutdown => Some OtherException
              | _ => None
              end).
(** [AppInit2] itself raises. *)
Definition env_init_throws : Env :=
  sample_env false false 1 false
    (fun c => match c with
              | CAppInit2 => Some (StdException "bad alloc")
              | _ => None
              end).

(** A controller as [main] has it when the event loop starts: payment
    server, options model, window with its running poll timer, worker
    thread. *)
Definition app_started : BitcoinApplication.t :=
  BitcoinApplication.mk true true false true (Some true) false true false true 0.

(** ** Further observations *)

(** The part of a trace that precedes the first event satisfying [p]. *)
Fixpoint until (p : Event -> bool) (tr : Trace) : Trace :=
  match tr with
  | [] => []
  | e :: rest => if p e then [] else e :: until p rest
  end.

Definition is_quit (e : Event) : bool := is_step StepQuit e.

Definition is_engine_shutdown (e : Event) : bool :=
  match e with Call CShutdown => true | _ => false end.

(** Anything the controller can hear from the executor. *)
Definition is_report (e : Event) : bool :=
  is_initializeResult e || is_runawayException e.

Definition is_new_thread (e : Event) : bool :=
  match e with New OCoreThread => true | _ => false end.

Definition is_thread_start (e : Event) : bool :=
  match e with Call CThreadStart => true | _ => false end.

Definition is_requestedInitialize (e : Event) : bool :=
  match e with Emit requestedInitialize_sig => true | _ => false end.

Definition is_delete (e : Event) : bool :=
  match e with Delete _ => true | _ => false end.

Definition is_delete_of (o : Obj) (e : Event) : bool :=
  match e, o with
  | Delete OWindow, OWindow
  | Delete OOptionsModel, OOptionsModel
  | Delete OClientModel, OClientModel
  | Delete OWalletModel, OWalletModel
  | Delete OPaymentServer, OPaymentServer => true
  | _, _ => false
  end.

Definition is_exec (e : Event) : bool :=
  match e with Call CExec => true | _ => false end.

(** The engine, stopped in the middle of a relaunch by a failing
    [PrepareShutdown]; every other call returns. *)
Definition env_prepare_throws : Env :=
  sample_env false false 1 false
    (fun c => match c with
              | CPrepareShutdown => Some (StdException "db closed")
              | _ => None
              end).

Definition is_show (e : Event) : bool :=
  match e with Call CWindowShow => true | _ => false end.

Definition is_showMinimized (e : Event) : bool :=
  match e with Call CWindowShowMinimized => true | _ => false end.

Definition is_splashFinished (e : Event) : bool :=
  match e with Emit splashFinished_sig => true | _ => false end.

Definition is_new_clientModel (e : Event) : bool :=
  match e with New OClientModel => true | _ => false end.

Definition is_new_walletModel (e : Event) : bool :=
  match e with New OWalletModel => true | _ => false end.

Definition is_stopThread (e : Event) : bool :=
  match e with Emit stopThread_sig => true | _ => false end.

Definition is_thread_wait (e : Event) : bool :=
  match e with Call CThreadWait => true | _ => false end.

Definition is_settings_clear (e : Event) : bool :=
  match e with Call CSettingsClear => true | _ => false end.

(** [delete clientModel] or [delete walletModel]. *)
Definition deletes_model (e : Event) : bool :=
  match e with
  | Delete OClientModel | Delete OWalletModel => true
  | _ => false
  end.

(** The single-instance probe: [ipcSendCommand("nbx:show")]. *)
Definition is_probe (e : Event) : bool :=
  match e with
  | Call (CIpcSendCommand cmd) => String.eqb cmd "nbx:show"
  | _ => false
  end.

(** Creation of the main window, of its poll timer, of the splash screen,
    of the payment server or of the worker thread with its executor. *)
Definition creates_component (e : Event) : bool :=
  match e with
  | New OWindow | New OPollShutdownTimer | New OSplashScreen
  | New OPaymentServer | New OOptionsModel
  | New OCoreThread | New OExecutor
  | Call (CTimerStart _) | Call CThreadStart => true
  | _ => false
  end.

Definition picks_datadir (e : Event) : bool :=
  match e with Call CPickDataDirectory => true | _ => false end.

(** One of the three help options is on the command line. *)
Definition help_requested (env : Env) : bool :=
  mapArgs_count env "-?" || mapArgs_count env "-help"
  || mapArgs_count env "-version".

(** ** rpcShow *)

(** [int rpcShow()].  [appInitialized] is the extern global of that name;
    without ENABLE_WALLET the function is [return 3]. *)
Definition rpcShow {S} (env : Env) (appInitialized : bool) : M S Z :=
  if negb (ENABLE_WALLET env) then ret 3
  else
    call env (CIpcSendCommand "nbx:show") ;;
    if negb (ipcSendCommand env "nbx:show") then ret 2
    else if negb appInitialized then ret 1
    else ret 0.

(** The configuration file does not parse. *)
Definition env_bad_config : Env :=
  sample_env false false 1 false
    (fun c => match c with
              | CReadConfigFile => Some (StdException "parse error")
              | _ => None
              end).

(** [-help] was given. *)
Definition env_help : Env :=
  {| ENABLE_WALLET := true; Q_OS_WIN := false; Q_OS_MAC := false; WIN32 := false;
     throws := no_throw;
     AppInit2_result := 1;
     ResyncNeeded := false;
     ShutdownRequested := false;
     RestartRequested := false;
     pwalletMain := true;
     strMiscWarning := strMiscWarning env_init_ok;
     buildParameterlist := fun arg => [arg];
     applicationFilePath := "nbx-qt";
     GetBoolArg := fun _ dflt => dflt;
     mapArgs_count := fun name => String.eqb name "-help";
     isShuttingDown := false;
     resetSettings := false;
     pickDataDirectory := true;
     is_directory := true;
     SelectParamsFromCommandLine := true;
     masternodeConfig_read := true;
     ipcSendCommandLine := false;
     ipcSendCommand := fun _ => false |}.

(** [main] returned [code] after [dialogs] error boxes, without having
    built any part of the application and without having probed for a
    running instance. *)
Definition gave_up (r : Run BitcoinApplication.t Z) (code : Z) (dialogs : nat) : Prop :=
  outcome r = Ret code /\
  count is_error_dialog (trace r) = dialogs /\
  count creates_component (trace r) = O /\
  count is_probe (trace r) = O.

(** Every external call returns, except possibly [ReadConfigFile]. *)
Definition quiet_but_config (env : Env) : Prop :=
  forall c, c <> CReadConfigFile -> throws env c = None.

(** The command line carries a URI and a running instance accepts it. *)
Definition env_uri_handed_over : Env :=
  {| ENABLE_WALLET := true; Q_OS_WIN := false; Q_OS_MAC := false; WIN32 := false;
     throws := no_throw;
     AppInit2_result := 1;
     ResyncNeeded := false;
     ShutdownRequested := false;
     RestartRequested := false;
     pwalletMain := true;
     strMiscWarning := strMiscWarning env_init_ok;
     buildParameterlist := fun arg => [arg];
     applicationFilePath := "nbx-qt";
     GetBoolArg := fun _ dflt => dflt;
     mapArgs_count := fun _ => false;
     isShuttingDown := false;
     resetSettings := false;
     pickDataDirectory := true;
     is_directory := true;
     SelectParamsFromCommandLine := true;
     masternodeConfig_read := true;
     ipcSendCommandLine := true;
     ipcSendCommand := fun _ => true |}.

(** Starting the poll timer raises. *)
Definition env_timer_throws : Env :=
  sample_env false false 1 false
    (fun c => match c with
              | CTimerStart _ => Some (StdException "no timers left")
              | _ => None
              end).

(** The block that [main] guards with its last [try]. *)
Definition gui_block (env : Env) (loop : list (M BitcoinApplication.t unit))
  : M BitcoinApplication.t unit :=
  bind (BitcoinApplication.createWindow env) (fun _ =>
  bind (BitcoinApplication.requestInitialize env) (fun _ =>
  bind (when (Q_OS_WIN env) (call env CRegisterShutdownBlockReason)) (fun _ =>
  exec env loop))).

(** * Proofs *)

(** ** Generic facts about programs *)

Lemma count_app (p : Event -> bool) (a b : Trace) :
  count p (a ++ b) = (count p a + count p b)%nat.
Proof.
  induction a as [|e a IH]; simpl; [reflexivity|].
  rewrite IH. lia.
Qed.

Lemma bind_ret_run {S A B} (m : M S A) (k : A -> M S B) s tr s' a :
  m s = mkRun tr s' (Ret a) ->
  bind m k s = mkRun (tr ++ trace (k a s')) (final (k a s')) (outcome (k a s')).
Proof.
  intros H. unfold bind. rewrite H. destruct (k a s'); reflexivity.
Qed.

Lemma bind_halt_run {S A B} (m : M S A) (k : A -> M S B) s tr s' w :
  m s = mkRun tr s' (Halt w) ->
  bind m k s = mkRun tr s' (Halt w).
Proof.
  intros H. unfold bind. rewrite H. reflexivity.
Qed.

Lemma run_eta {S A} (r : Run S A) : r = mkRun (trace r) (final r) (outcome r).
Proof. destruct r; reflexivity. Qed.

(** Symbolic execution: unfold the program, then split on what each
    external call answers, in program order. *)
Ltac split_calls :=
  repeat (cbn;
    match goal with
    | |- context [throws ?e ?c] => destruct (throws e c) eqn:?
    | |- context [Q_OS_WIN ?e] => destruct (Q_OS_WIN e) eqn:?
    end); cbn.

Ltac unfold_core :=
  unfold BitcoinCore.serve, BitcoinCore.initialize, BitcoinCore.shutdown,
    BitcoinCore.restart, BitcoinCore.handleRunawayException,
    bind, try_catch, call, emit, get, modify, log, halt, ret, when.

(** ** The executor *)

Section Executor.
Import BitcoinCore.

Lemma restart_disarmed env args :
  restart env args (mk false) = mkRun [] (mk false) (Ret tt).
Proof. reflexivity. Qed.

Lemma restart_returns env args c :
  outcome (restart env args c) = Ret tt /\ final (restart env args c) = mk false.
Proof.
  destruct c as [[|]]; [|split; reflexivity].
  unfold_core. split_calls; split; reflexivity.
Qed.

Lemma restart_steps env args c k :
  (count (is_step k) (trace (restart env args c)) <= 1)%nat.
Proof.
  destruct c as [[|]]; [|cbn; lia].
  unfold_core. destruct k; split_calls; lia.
Qed.

Lemma restart_effective env args c :
  trace (restart env args c) <> [] -> execute_restart c = true.
Proof.
  destruct c as [[|]]; [reflexivity|]. cbn. congruence.
Qed.


Lemma serve_restarts_disarmed reqs :
  serve_all (restart_requests reqs) (mk false) = mkRun [] (mk false) (Ret tt).
Proof.
  induction reqs as [|[env args] reqs IH]; [reflexivity|].
  simpl. erewrite bind_ret_run by apply restart_disarmed.
  rewrite IH. reflexivity.
Qed.

Lemma restart_run env args c :
  restart env args c = mkRun (trace (restart env args c)) (mk false) (Ret tt).
Proof.
  destruct (restart_returns env args c) as [Ho Hf].
  rewrite (run_eta (restart env args c)) at 1. rewrite Ho, Hf. reflexivity.
Qed.





(** C1: any number of Restart requests served in a row, from any latch
    value, performs each step of the relaunch action (interrupt, engine
    shutdown, net cleanup, detached launch, event-loop quit) at most once;
    only the first request can leave a trace, and every request after it
    finds the latch released and does nothing. *)
Theorem C1_restart_at_most_once :
  forall (reqs : list (Env * list string)) (core : BitcoinCore.t),
    let r := serve_all (restart_requests reqs) core in
    outcome r = Ret tt /\
    (forall k, (count (is_step k) (trace r) <= 1)%nat) /\
    match reqs with
    | [] => trace r = []
    | (env, args) :: later =>
        trace r = trace (restart env args core) /\
        Forall (fun ea =>
                  restart (fst ea) (snd ea) (final (restart env args core))
                  = mkRun [] (mk false) (Ret tt)) later
    end.
Proof.
  intros reqs core r.
  assert (Hr : r = match reqs with
                   | [] => mkRun [] core (Ret tt)
                   | (env, args) :: _ =>
                       mkRun (trace (restart env args core)) (mk false) (Ret tt)
                   end).
  { subst r. destruct reqs as [|[env args] later]; [reflexivity|].
    simpl. erewrite bind_ret_run by apply restart_run.
    rewrite serve_restarts_disarmed. simpl. rewrite app_nil_r. reflexivity. }
  destruct reqs as [|[env args] later]; rewrite Hr; simpl.
  - repeat split. intros k. lia.
  - repeat split.
    + intros k. apply restart_steps.
    + rewrite (proj2 (restart_returns env args core)).
      apply Forall_forall. intros ea _. apply restart_disarmed.
Qed.

(** C2, the claim as stated, fails when resynchronisation is needed while a
    shutdown has been requested: [AppInit2] returned, the executor is not in
    the restart case, and still no [initializeResult] is emitted. *)
Lemma C2_counterexample :
  ~ (if ResyncNeeded env_resync_while_quitting
        && negb (ShutdownRequested env_resync_while_quitting)
     then count is_initializeResult
            (trace (initialize env_resync_while_quitting (new false))) = 0%nat
     else count is_initializeResult
            (trace (initialize env_resync_while_quitting (new false))) = 1%nat).
Proof. cbn. discriminate. Qed.

(** C2, amended: when [AppInit2] returns normally, [initialize] does one of
    three things.  Resync needed and no shutdown requested: it runs
    [restart] on the parameter list built for "-resync", with the latch
    armed, and emits no [initializeResult] (and the relaunch happens exactly
    once, with those arguments, when no engine call raises).  Resync not
    needed: it emits exactly one [initializeResult] carrying the return code
    of [AppInit2].  Resync needed while a shutdown is requested: it does
    nothing further. *)
Theorem C2_initialize_outcome :
  forall (env : Env) (core : BitcoinCore.t),
    throws env CAppInit2 = None ->
    let r := initialize env core in
    match ResyncNeeded env, ShutdownRequested env with
    | true, false =>
        let args := buildParameterlist env "-resync" in
        r = mkRun (Call CAppInit2 :: trace (restart env args (mk true)))
                  (mk false) (Ret tt) /\
        count is_initializeResult (trace r) = 0%nat /\
        (quiet env ->
         count is_relaunch (trace r) = 1%nat /\
         In (Call (CStartDetached (applicationFilePath env) args)) (trace r))
    | true, true => r = mkRun [Call CAppInit2] (mk true) (Ret tt)
    | false, _ =>
        r = mkRun [Call CAppInit2; Emit (initializeResult_sig (AppInit2_result env))]
                  (mk true) (Ret tt) /\
        count is_initializeResult (trace r) = 1%nat
    end.
Proof.
  intros env core Hinit r. subst r.
  destruct (ResyncNeeded env) eqn:Hre; [destruct (ShutdownRequested env) eqn:Hsh|].
  - unfold_core. rewrite Hinit, Hre, Hsh. reflexivity.
  - assert (Hrun : initialize env core =
                   mkRun (Call CAppInit2
                            :: trace (restart env (buildParameterlist env "-resync") (mk true)))
                         (mk false) (Ret tt)).
    { unfold initialize, bind, try_catch, call, modify, log, ret.
      rewrite Hinit, Hre, Hsh. cbn -[restart].
      rewrite (restart_run env _ (mk true)). reflexivity. }
    rewrite Hrun. cbn -[restart]. split; [reflexivity|]. split.
    + unfold_core. split_calls; reflexivity.
    + intros Hq. unfold_core. rewrite !Hq.
      destruct (Q_OS_WIN env); cbn; (split; [reflexivity|]); auto 10.
  - unfold_core. rewrite Hinit, Hre. cbn. split; reflexivity.
Qed.

Lemma C2_initialize_outcome_witness :
  count is_relaunch (trace (initialize env_resync (new false))) = 1%nat /\
  In (Call (CStartDetached "nbx-qt" ["-resync"]))
     (trace (initialize env_resync (new false))).
Proof.
  pose proof (C2_initialize_outcome env_resync (new false) eq_refl) as H.
  cbv beta iota zeta delta [ResyncNeeded ShutdownRequested env_resync sample_env] in H.
  destruct H as (_ & _ & H). apply H. intros c. reflexivity.
Defined.

(** Closes [In x tr] on an explicit trace. *)
Ltac find_in := simpl; repeat first [left; reflexivity | right].

(** Given [Hin : In (Call c) tr] for an explicit [tr] and
    [Hthrow : throws env c = Some e], finds the call that raised and the
    signal that reports it. *)
Ltac blame_head Hhd Hthrow :=
  first
    [ discriminate Hhd
    | let Hc := fresh "Hc" in
      injection Hhd as Hc; subst;
      match goal with
      | H : throws _ _ = None |- _ => rewrite Hthrow in H; discriminate H
      | H : throws _ _ = Some _ |- _ =>
          rewrite Hthrow in H;
          let He := fresh "He" in injection H as He; subst; find_in
      end ].

Ltac blame_rec Hin Hthrow :=
  lazymatch type of Hin with
  | _ \/ _ =>
      let Hhd := fresh "Hhd" in
      let Htl := fresh "Htl" in
      destruct Hin as [Hhd|Htl];
      [ blame_head Hhd Hthrow | blame_rec Htl Hthrow ]
  | False => contradiction
  end.

Ltac blame Hin Hthrow := simpl in Hin; blame_rec Hin Hthrow.

Lemma serve_reports env req core c e :
  throws env c = Some e ->
  In (Call c) (trace (serve env req core)) ->
  In (Emit (runawayException_sig
              (strMiscWarning env (exception_ptr e) "Runaway exception")))
     (trace (serve env req core)).
Proof.
  intros Hthrow.
  destruct req as [| |args]; unfold_core.
  - destruct (throws env CAppInit2) eqn:?; cbn.
    + intros Hin. blame Hin Hthrow.
    + destruct (ResyncNeeded env), (ShutdownRequested env); cbn;
        try (intros Hin; blame Hin Hthrow).
      split_calls; intros Hin; blame Hin Hthrow.
  - destruct (RestartRequested env); [intros []|].
    split_calls; intros Hin; blame Hin Hthrow.
  - destruct core as [[|]]; [|intros []].
    split_calls; intros Hin; blame Hin Hthrow.
Qed.

Lemma serve_returns env req core :
  outcome (serve env req core) = Ret tt /\
  count is_error_dialog (trace (serve env req core)) = 0%nat.
Proof.
  destruct req as [| |args]; unfold_core.
  - destruct (throws env CAppInit2) eqn:?; cbn; [split; reflexivity|].
    destruct (ResyncNeeded env), (ShutdownRequested env); cbn;
      try (split; reflexivity).
    split_calls; split; reflexivity.
  - destruct (RestartRequested env); [split; reflexivity|].
    split_calls; split; reflexivity.
  - destruct core as [[|]]; [|split; reflexivity].
    split_calls; split; reflexivity.
Qed.

(** X20: whatever an engine call raises while the executor serves an
    Initialize, Shutdown or Restart request, the slot returns normally (no
    exception leaves it), the exception has been turned into a
    [runawayException] signal carrying the formatted message, and the
    executor itself opens no dialog. *)
Theorem worker_faults_become_messages :
  forall (env : Env) (req : BitcoinCore.Request) (core : BitcoinCore.t),
    let r := serve env req core in
    outcome r = Ret tt /\
    (forall c e,
        In (Call c) (trace r) -> throws env c = Some e ->
        In (Emit (runawayException_sig
                    (strMiscWarning env (exception_ptr e) "Runaway exception")))
           (trace r)) /\
    count is_error_dialog (trace r) = 0%nat.
Proof.
  intros env req core r. subst r.
  destruct (serve_returns env req core) as [Ho Hd].
  repeat split; try assumption.
  intros c e Hin Hthrow. exact (serve_reports env req core c e Hthrow Hin).
Qed.

Lemma worker_faults_become_messages_witness :
  In (Emit (runawayException_sig "EXCEPTION: bad alloc in Runaway exception"))
     (trace (serve env_init_throws Initialize (new false))).
Proof.
  destruct (worker_faults_become_messages env_init_throws Initialize (new false))
    as (_ & Hmsg & _).
  apply (Hmsg CAppInit2 (StdException "bad alloc")).
  - simpl. left. reflexivity.
  - reflexivity.
Defined.

(** C8, evaluated where the code departs from it: [AppInit2] raises
    "bad alloc" on the worker thread.  The executor catches it and emits
    [runawayException] with the formatted message, as claimed.  The
    controller's slot, run by the event loop of [main], shows the error box
    and calls [QCoreApplication::exit(EXIT_FAILURE)], which returns; [main]
    then returns [getReturnValue()], still 0, and not a failure status. *)
Theorem C8_runaway_exception_exit_status :
  trace (serve env_init_throws Initialize (new false))
  = [Call CAppInit2;
     PrintExceptionContinue (Some "bad alloc") "Runaway exception";
     Emit (runawayException_sig "EXCEPTION: bad alloc in Runaway exception")] /\
  BitcoinApplication.handleRunawayException env_init_throws
    "EXCEPTION: bad alloc in Runaway exception" app_started
  = mkRun [Call (CShowErrorMessage "EXCEPTION: bad alloc in Runaway exception");
           Call (CApplicationExit EXIT_FAILURE)]
          app_started (Ret tt) /\
  outcome
    (main env_init_throws
       [BitcoinApplication.handleRunawayException env_init_throws
          "EXCEPTION: bad alloc in Runaway exception"]
       BitcoinApplication.new)
  = Ret 0.
Proof.
  split; [|split].
  - reflexivity.
  - reflexivity.
  - vm_compute. reflexivity.
Qed.



(** With a single Initialize the relaunch can still happen twice: a Restart
    served first finds the latch at whatever the constructor left, and the
    resync path of the Initialize that follows arms it again. *)
Example restart_before_initialize :
  count is_relaunch
    (trace (serve_all [(env_init_ok, Restart ["-rescan"]); (env_resync, Initialize)]
                      (new true))) = 2%nat.
Proof. reflexivity. Qed.

End Executor.

(** ** More on the executor *)

(** Symbolic execution that first asks the hypotheses what a test answers
    and splits only when none of them knows. *)
Ltac stuck_on t :=
  lazymatch t with
  | context [match ?x with _ => _ end] => stuck_on x
  | negb ?x => stuck_on x
  | andb ?x _ => stuck_on x
  | orb ?x _ => stuck_on x
  | _ => t
  end.

Ltac next_test :=
  match goal with
  | Hq : quiet ?e |- context [throws ?e ?c] => rewrite (Hq c)
  | H : ?x = _ |- context [match ?x with _ => _ end] => rewrite H
  | |- ?G => let x := stuck_on G in destruct x eqn:?
  end.

Ltac split_paths := repeat (cbn; next_test); cbn.

(** The same on a run named by a hypothesis [H : r = program state], so
    that the program is executed once however often the goal mentions
    [r]. *)
Ltac next_test_in H :=
  let T := type of H in
  match goal with
  | Hq : quiet ?e |- _ =>
      match T with context [throws e ?c] => rewrite (Hq c) in H end
  | E : ?x = _ |- _ =>
      lazymatch x with
      | true => fail | false => fail | Some _ => fail | None => fail
      | _ => tryif is_var x then fail else idtac
      end;
      match T with context [x] => rewrite E in H end
  | _ =>
      let x := stuck_on T in
      let E := fresh "E" in
      destruct x eqn:E; try rewrite E in H
  end.

Ltac run_paths H := repeat (cbn in H; next_test_in H); cbn in H.


Section ExecutorMore.
Import BitcoinCore.

(** X1: [shutdown] always returns, never touches the restart latch and
    never launches a process; it does nothing at all while a restart is
    requested, it starts with [Interrupt] otherwise, and it reaches
    [Shutdown] only when [Interrupt] returned and [quit] only when
    [Shutdown] returned. *)
Theorem shutdown_leaves_latch_alone :
  forall (env : Env) (core : BitcoinCore.t),
    let r := shutdown env core in
    outcome r = Ret tt /\ final r = core /\
    count is_relaunch (trace r) = 0%nat /\
    (if RestartRequested env then trace r = []
     else hd_error (trace r) = Some (Call CInterrupt)) /\
    (In (Call CShutdown) (trace r) -> throws env CInterrupt = None) /\
    (In (Call CQuit) (trace r) -> throws env CShutdown = None).
Proof.
  intros env core r. subst r. unfold_core.
  destruct (RestartRequested env).
  - cbn. repeat split; intros [].
  - split_calls; repeat split; try reflexivity; intros Hin; simpl in Hin;
      repeat (destruct Hin as [Hin|Hin]; try discriminate Hin);
      try contradiction.
Qed.

Lemma shutdown_leaves_latch_alone_witness :
  throws env_init_ok CInterrupt = None /\ throws env_init_ok CShutdown = None.
Proof.
  destruct (shutdown_leaves_latch_alone env_init_ok (new true))
    as (_ & _ & _ & _ & Hsh & Hq).
  split.
  - apply Hsh. simpl. right. left. reflexivity.
  - apply Hq. simpl. right. right. left. reflexivity.
Defined.

(** X2: a relaunch that fails before the new process is launched is never
    retried.  The latch is released before the [try] block, so once
    [Interrupt], [PrepareShutdown] or the net cleanup has raised, no later
    Restart request launches anything either. *)
Theorem failed_relaunch_is_not_retried :
  forall (env : Env) (args : list string) (c0 : ExtCall) (e : Exn)
         (later : list (Env * list string)) (core : BitcoinCore.t),
    In c0 [CInterrupt; CPrepareShutdown; CNetCleanup] ->
    throws env c0 = Some e ->
    let r := serve_all ((env, Restart args) :: restart_requests later) core in
    outcome r = Ret tt /\
    count is_relaunch (trace r) = 0%nat /\
    execute_restart (final r) = false.
Proof.
  intros env args c0 e later core Hc0 Hthrow r. subst r.
  simpl. erewrite bind_ret_run by apply restart_run.
  rewrite serve_restarts_disarmed. simpl. rewrite app_nil_r.
  repeat split.
  destruct core as [[|]]; [|reflexivity].
  simpl in Hc0. destruct Hc0 as [<-|[<-|[<-|[]]]];
    unfold_core; split_paths; reflexivity.
Qed.

Lemma failed_relaunch_is_not_retried_witness :
  count is_relaunch
    (trace (serve_all [(env_prepare_throws, Restart ["-rescan"]);
                       (env_init_ok, Restart ["-rescan"]);
                       (env_init_ok, Restart ["-reindex"])] (new true))) = 0%nat.
Proof.
  apply (failed_relaunch_is_not_retried env_prepare_throws ["-rescan"]
           CPrepareShutdown (StdException "db closed")
           [(env_init_ok, ["-rescan"]); (env_init_ok, ["-reindex"])] (new true)).
  - simpl. right. left. reflexivity.
  - reflexivity.
Defined.

(** X3: [restart] launches the new process only after [Interrupt],
    [PrepareShutdown] and the net cleanup have all returned, in that order
    and with nothing else before, and it quits the event loop only after
    the launch returned. *)
Theorem relaunch_follows_engine_shutdown :
  forall (env : Env) (args : list string) (core : BitcoinCore.t),
    let tr := trace (restart env args core) in
    (In (Call (CStartDetached (applicationFilePath env) args)) tr ->
     until is_relaunch tr
       = [Call CInterrupt; Call CPrepareShutdown; Call CNetCleanup] /\
     throws env CInterrupt = None /\ throws env CPrepareShutdown = None /\
     throws env CNetCleanup = None) /\
    (In (Call CQuit) tr ->
     throws env (CStartDetached (applicationFilePath env) args) = None /\
     until is_quit tr
       = [Call CInterrupt; Call CPrepareShutdown; Call CNetCleanup;
          Call (CStartDetached (applicationFilePath env) args)]).
Proof.
  intros env args core tr. subst tr.
  destruct core as [[|]]; [|split; intros []].
  unfold_core. split_calls; split; intros Hin; simpl in Hin;
    repeat (destruct Hin as [Hin|Hin]; try discriminate Hin);
    try contradiction; repeat split.
Qed.

Lemma relaunch_follows_engine_shutdown_witness :
  until is_relaunch (trace (restart env_init_ok ["-rescan"] (new true)))
  = [Call CInterrupt; Call CPrepareShutdown; Call CNetCleanup] /\
  until is_quit (trace (restart env_init_ok ["-rescan"] (new true)))
  = [Call CInterrupt; Call CPrepareShutdown; Call CNetCleanup;
     Call (CStartDetached "nbx-qt" ["-rescan"])].
Proof.
  destruct (relaunch_follows_engine_shutdown env_init_ok ["-rescan"] (new true))
    as [Hlaunch Hquit].
  split.
  - apply Hlaunch. simpl. do 3 right. left. reflexivity.
  - apply Hquit. simpl. do 4 right. left. reflexivity.
Defined.

(** X4: [initialize] reports to the controller at most once, by
    [initializeResult] or by [runawayException] and never by both; when no
    resynchronisation is needed it reports exactly once, and it then
    neither interrupts the engine nor quits the event loop. *)
Theorem initialize_reports_at_most_once :
  forall (env : Env) (core : BitcoinCore.t),
    let tr := trace (initialize env core) in
    (count is_report tr <= 1)%nat /\
    (ResyncNeeded env = false ->
     count is_report tr = 1%nat /\
     count (is_step StepInterrupt) tr = 0%nat /\
     count is_quit tr = 0%nat).
Proof.
  intros env core tr. subst tr. unfold_core.
  destruct (throws env CAppInit2) eqn:?; cbn; [split; [lia|repeat split]|].
  destruct (ResyncNeeded env) eqn:Hre; cbn.
  - destruct (ShutdownRequested env); cbn; [split; [lia|discriminate]|].
    split_calls; (split; [lia|discriminate]).
  - split; [lia|repeat split].
Qed.

Lemma initialize_reports_at_most_once_witness :
  count is_report (trace (initialize env_init_throws (new false))) = 1%nat.
Proof.
  apply (initialize_reports_at_most_once env_init_throws (new false)).
  reflexivity.
Defined.

Lemma serve_reports_once env req core :
  (count is_runawayException (trace (serve env req core)) <= 1)%nat.
Proof.
  destruct req as [| |args]; unfold_core.
  - destruct (throws env CAppInit2) eqn:?; cbn; [lia|].
    destruct (ResyncNeeded env), (ShutdownRequested env); cbn; try lia.
    split_calls; lia.
  - destruct (RestartRequested env); [cbn; lia|]. split_calls; lia.
  - destruct core as [[|]]; [|cbn; lia]. split_calls; lia.
Qed.

Lemma serve_run env req core :
  serve env req core
  = mkRun (trace (serve env req core)) (final (serve env req core)) (Ret tt).
Proof.
  rewrite (run_eta (serve env req core)) at 1.
  rewrite (proj1 (serve_returns env req core)). reflexivity.
Qed.

(** X5: whatever the requests and whatever the engine raises while they
    are served, the slots of the worker thread all return: the queue is
    served to its end, with at most one [runawayException] per request and
    no dialog opened from the worker. *)
Theorem executor_serves_every_request :
  forall (reqs : list (Env * BitcoinCore.Request)) (core : BitcoinCore.t),
    let r := serve_all reqs core in
    outcome r = Ret tt /\
    (count is_runawayException (trace r) <= List.length reqs)%nat /\
    count is_error_dialog (trace r) = 0%nat.
Proof.
  induction reqs as [|[env req] reqs IH]; intros core.
  - cbn. repeat split. lia.
  - cbn zeta. simpl serve_all.
    erewrite bind_ret_run by apply serve_run.
    destruct (IH (final (serve env req core))) as (Ho & Hc & Hd).
    cbn [outcome trace final]. rewrite !count_app.
    pose proof (serve_reports_once env req core).
    pose proof (proj2 (serve_returns env req core)) as Hd1.
    split; [exact Ho|]. split; [simpl List.length; lia|].
    rewrite Hd1, Hd. reflexivity.
Qed.

End ExecutorMore.

(** ** More on the controller *)

Ltac unfold_app :=
  unfold BitcoinApplication.initializeResult, BitcoinApplication.requestShutdown,
    BitcoinApplication.requestInitialize, BitcoinApplication.startThread,
    BitcoinApplication.createWindow, BitcoinApplication.createOptionsModel,
    BitcoinApplication.createPaymentServer, BitcoinApplication.createSplashScreen,
    BitcoinApplication.handleRunawayException, BitcoinApplication.destroy,
    BitcoinApplication.timer_start, BitcoinApplication.timer_stop,
    BitcoinApplication.on_window, BitcoinApplication.on_paymentServer,
    BitcoinApplication.delete, BitcoinApplication.processEvents,
    BitcoinApplication.getReturnValue,
    bind, try_catch, call, emit, get, modify, log, halt, ret, when.

Ltac unfold_app_in H :=
  unfold BitcoinApplication.initializeResult, BitcoinApplication.requestShutdown,
    BitcoinApplication.requestInitialize, BitcoinApplication.startThread,
    BitcoinApplication.createWindow, BitcoinApplication.createOptionsModel,
    BitcoinApplication.createPaymentServer, BitcoinApplication.createSplashScreen,
    BitcoinApplication.handleRunawayException, BitcoinApplication.destroy,
    BitcoinApplication.timer_start, BitcoinApplication.timer_stop,
    BitcoinApplication.on_window, BitcoinApplication.on_paymentServer,
    BitcoinApplication.delete, BitcoinApplication.processEvents,
    BitcoinApplication.getReturnValue,
    bind, try_catch, call, emit, get, modify, log, halt, ret, when in H.

(** Closes [In e tr] on an explicit trace. *)
Ltac locate_event := simpl; repeat first [left; reflexivity | right].

Section ControllerMore.
Import BitcoinApplication.

Lemma wait_passes_open_gate env fuel events app :
  shutdownAllowed app = true ->
  waitShutdownAllowed env fuel events app = mkRun [] app (Ret tt).
Proof.
  intros Hgate. destruct fuel; cbn; unfold bind, get, ret; cbn;
    rewrite Hgate; reflexivity.
Qed.

(** X6: the worker thread is created at most once.  [startThread] sets
    [coreThread] before it wires and starts the thread, so every later call
    is a no-op, also after a call that raised half-way; the thread such a
    call left behind is never started. *)
Theorem worker_thread_is_created_once :
  forall (env1 env2 : Env) (app : BitcoinApplication.t),
    let r1 := startThread env1 app in
    let r2 := startThread env2 (final r1) in
    coreThread (final r1) = true /\
    r2 = mkRun [] (final r1) (Ret tt) /\
    (count is_new_thread (trace r1) <= 1)%nat /\
    (coreThread app = true -> trace r1 = []) /\
    (coreThread app = false -> outcome r1 = Ret tt ->
     count is_thread_start (trace r1) = 1%nat) /\
    (throws env1 CThreadStart = None -> outcome r1 <> Ret tt ->
     count is_thread_start (trace r1 ++ trace r2) = 0%nat).
Proof.
  intros env1 env2 app. destruct app. unfold_app.
  split_paths; repeat split; try lia; try congruence; try discriminate.
Qed.

Lemma worker_thread_is_created_once_witness :
  count is_thread_start (trace (startThread env_init_ok new)) = 1%nat.
Proof.
  apply (worker_thread_is_created_once env_init_ok env_init_ok new);
    reflexivity.
Defined.

(** X7: [requestInitialize] emits [requestedInitialize] at most once, and
    when it had to create the worker thread, only after the signal has been
    connected to the executor's [initialize] slot and the thread started;
    with no call raising it emits it exactly once. *)
Theorem initialize_is_requested_after_wiring :
  forall (env : Env) (app : BitcoinApplication.t),
    let r := requestInitialize env app in
    (count is_requestedInitialize (trace r) <= 1)%nat /\
    (coreThread app = false -> In (Emit requestedInitialize_sig) (trace r) ->
     outcome r = Ret tt /\
     In (Call (CConnect OApplication "requestedInitialize()" OExecutor "initialize()"))
        (until is_requestedInitialize (trace r)) /\
     In (Call CThreadStart) (until is_requestedInitialize (trace r))) /\
    (quiet env -> count is_requestedInitialize (trace r) = 1%nat).
Proof.
  intros env app. destruct app as [ct om cm w pt sm ps wm sa rv].
  unfold_app. cbn.
  destruct ct.
  - cbn. split; [lia|]. split; [discriminate|]. reflexivity.
  - split; [|split].
    + split_calls; lia.
    + intros _. split_calls; intros Hin; simpl in Hin;
        repeat (destruct Hin as [Hin|Hin]; try discriminate Hin);
        try contradiction; repeat split; locate_event.
    + intros Hq. split_paths. reflexivity.
Qed.

Lemma initialize_is_requested_after_wiring_witness :
  In (Call CThreadStart)
     (until is_requestedInitialize (trace (requestInitialize env_init_ok new))) /\
  count is_requestedInitialize (trace (requestInitialize env_init_ok new)) = 1%nat.
Proof.
  destruct (initialize_is_requested_after_wiring env_init_ok new)
    as (_ & Hwired & Hquiet).
  split.
  - apply Hwired; [reflexivity|]. simpl. do 12 right. left. reflexivity.
  - apply Hquiet. intros c. reflexivity.
Defined.

(** X8: [initializeResult] leaves the shutdown gate open exactly when it
    returns: on both of its normal exits the gate is open again, and when
    it is cut short (a call raises, or [window] or [paymentServer] is null)
    the gate stays closed. *)
Theorem gate_reopens_iff_initializeResult_returns :
  forall (env : Env) (retval : Z) (app : BitcoinApplication.t),
    let r := initializeResult env retval app in
    shutdownAllowed (final r)
    = match outcome r with Ret _ => true | Halt _ => false end.
Proof.
  intros env retval app. destruct app. unfold_app.
  split_paths; reflexivity.
Qed.

(** X9: on a successful start-up that nobody interrupted, the main window
    is shown as the options ask: minimised under -min (which wins over
    -hide), not at all under -hide alone, normally otherwise; and always
    after [applicationInitialized] was emitted and before
    [splashFinished]. *)
Theorem window_is_shown_as_the_options_ask :
  forall (env : Env) (retval : Z) (app : BitcoinApplication.t),
    quiet env -> retval <> 0 -> ShutdownRequested env = false ->
    window app = true ->
    (ENABLE_WALLET env = true -> paymentServer app = true) ->
    let r := initializeResult env retval app in
    outcome r = Ret tt /\
    count is_showMinimized (trace r)
      = (if GetBoolArg env "-min" false then 1 else 0)%nat /\
    count is_show (trace r)
      = (if GetBoolArg env "-min" false then 0
         else if GetBoolArg env "-hide" false then 0 else 1)%nat /\
    In (Emit applicationInitialized_sig) (until shows_window (trace r)) /\
    count is_splashFinished (trace r) = 1%nat /\
    count shows_window (until is_splashFinished (trace r))
      = count shows_window (trace r).
Proof.
  intros env retval app Hq Hrv Hsh Hw Hps.
  apply Z.eqb_neq in Hrv.
  destruct app as [ct om cm w pt sm ps wm sa rv]. cbn in Hw, Hps. subst w.
  unfold_app. cbn. rewrite Hsh. cbn. rewrite Hrv. cbn.
  destruct (ENABLE_WALLET env) eqn:Hwallet.
  - rewrite (Hps eq_refl). split_paths; repeat split; locate_event.
  - split_paths; repeat split; locate_event.
Qed.

Lemma window_is_shown_as_the_options_ask_witness :
  count is_show (trace (initializeResult env_init_ok 1 app_started)) = 1%nat.
Proof.
  apply (window_is_shown_as_the_options_ask env_init_ok 1 app_started).
  - intros c. reflexivity.
  - discriminate.
  - reflexivity.
  - reflexivity.
  - reflexivity.
Defined.

(** X10: on such a start-up the client model is constructed exactly once
    and first; a wallet model follows exactly when the wallet is built in
    and [pwalletMain] is set; both exist before [applicationInitialized] is
    emitted, and the exit code is set to 0. *)
Theorem models_are_built_before_the_window_learns :
  forall (env : Env) (retval : Z) (app : BitcoinApplication.t),
    quiet env -> retval <> 0 -> ShutdownRequested env = false ->
    window app = true ->
    (ENABLE_WALLET env = true -> paymentServer app = true) ->
    let r := initializeResult env retval app in
    count is_new_clientModel (trace r) = 1%nat /\
    count is_new_walletModel (trace r)
      = (if ENABLE_WALLET env && pwalletMain env then 1 else 0)%nat /\
    In (New OClientModel) (until is_new_walletModel (trace r)) /\
    count constructs_model (until is_applicationInitialized (trace r))
      = count constructs_model (trace r) /\
    clientModel (final r) = true /\
    walletModel (final r)
      = (ENABLE_WALLET env && pwalletMain env) || walletModel app /\
    returnValue (final r) = 0.
Proof.
  intros env retval app Hq Hrv Hsh Hw Hps.
  apply Z.eqb_neq in Hrv.
  destruct app as [ct om cm w pt sm ps wm sa rv]. cbn in Hw, Hps. subst w.
  unfold_app. cbn. rewrite Hsh. cbn. rewrite Hrv. cbn.
  destruct (ENABLE_WALLET env) eqn:Hwallet.
  - rewrite (Hps eq_refl). split_paths; repeat split; locate_event.
  - split_paths; repeat split; locate_event.
Qed.

Lemma models_are_built_before_the_window_learns_witness :
  count is_new_walletModel (trace (initializeResult env_init_ok 1 app_started))
  = 1%nat.
Proof.
  apply (models_are_built_before_the_window_learns env_init_ok 1 app_started).
  - intros c. reflexivity.
  - discriminate.
  - reflexivity.
  - reflexivity.
  - reflexivity.
Defined.

(** X11: with the gate open, [requestShutdown] does not wait, and tears the
    models down in order before it forwards the request: the window is
    detached from the client model first, the wallet model is deleted
    before the client model, each at most once and only if it exists, both
    pointers are null afterwards, and [requestedShutdown] is emitted last.
    The options model is not touched. *)
Theorem models_are_torn_down_before_shutdown_is_forwarded :
  forall (env : Env) (fuel : nat) (events : list (M BitcoinApplication.t unit))
         (app : BitcoinApplication.t) (running : bool),
    quiet env -> shutdownAllowed app = true ->
    window app = true -> pollShutdownTimer app = Some running ->
    let r := requestShutdown env fuel events app in
    outcome r = Ret tt /\
    count is_processEvents (trace r) = 0%nat /\
    In (Call (CWindowSetClientModel false)) (until is_delete (trace r)) /\
    count (is_delete_of OClientModel) (trace r)
      = (if clientModel app then 1 else 0)%nat /\
    count (is_delete_of OWalletModel) (trace r)
      = (if ENABLE_WALLET env && walletModel app then 1 else 0)%nat /\
    count (is_delete_of OWalletModel) (until (is_delete_of OClientModel) (trace r))
      = count (is_delete_of OWalletModel) (trace r) /\
    count (is_delete_of OOptionsModel) (trace r) = 0%nat /\
    count is_delete (until is_requestedShutdown (trace r))
      = count is_delete (trace r) /\
    In (Emit requestedShutdown_sig) (trace r) /\
    clientModel (final r) = false /\
    walletModel (final r) = (if ENABLE_WALLET env then false else walletModel app) /\
    optionsModel (final r) = optionsModel app.
Proof.
  intros env fuel events app running Hq Hgate Hw Ht r.
  assert (Hr : r = requestShutdown env fuel events app) by reflexivity.
  clearbody r. unfold requestShutdown in Hr.
  erewrite bind_ret_run in Hr by (apply wait_passes_open_gate; exact Hgate).
  destruct app as [ct om cm w pt sm ps wm sa rv]. cbn in Hgate, Hw, Ht. subst w pt sa.
  unfold_app_in Hr. run_paths Hr; subst r; cbn; repeat split; locate_event.
Qed.

Lemma models_are_torn_down_before_shutdown_is_forwarded_witness :
  clientModel (final (requestShutdown env_init_ok 0 []
                        (final (initializeResult env_init_ok 1 app_started))))
  = false.
Proof.
  apply (models_are_torn_down_before_shutdown_is_forwarded env_init_ok 0 []
           (final (initializeResult env_init_ok 1 app_started)) true).
  - intros c. reflexivity.
  - reflexivity.
  - reflexivity.
  - reflexivity.
Defined.

(** X12: [requestShutdown] on a controller that has no window (before
    [createWindow]) dereferences the null [window]: it has by then created
    and started the worker thread, and it stops there, deleting nothing and
    forwarding nothing. *)
Theorem requestShutdown_needs_the_window :
  forall (env : Env) (fuel : nat) (events : list (M BitcoinApplication.t unit))
         (app : BitcoinApplication.t),
    quiet env -> shutdownAllowed app = true -> window app = false ->
    let r := requestShutdown env fuel events app in
    outcome r = Halt NullDeref /\
    coreThread (final r) = true /\
    count is_thread_start (trace r) = (if coreThread app then 0 else 1)%nat /\
    count is_delete (trace r) = 0%nat /\
    count is_requestedShutdown (trace r) = 0%nat.
Proof.
  intros env fuel events app Hq Hgate Hw r.
  assert (Hr : r = requestShutdown env fuel events app) by reflexivity.
  clearbody r. unfold requestShutdown in Hr.
  erewrite bind_ret_run in Hr by (apply wait_passes_open_gate; exact Hgate).
  destruct app as [ct om cm w pt sm ps wm sa rv]. cbn in Hgate, Hw. subst w sa.
  unfold_app_in Hr. run_paths Hr; subst r; cbn; repeat split.
Qed.

Lemma requestShutdown_needs_the_window_witness :
  outcome (requestShutdown env_init_ok 0 [] new) = Halt NullDeref.
Proof.
  apply (requestShutdown_needs_the_window env_init_ok 0 [] new).
  - intros c. reflexivity.
  - reflexivity.
  - reflexivity.
Defined.

(** X13: the destructor stops the worker thread and waits for it before it
    deletes anything (and deletes nothing if the wait raises); it deletes
    the options model last, never the client or wallet model, and clears
    the stored settings only when an options model exists and asks for it.
    When nothing raises, window and options model are null afterwards, the
    poll timer pointer is what it was, and a second destruction deletes
    nothing. *)
Theorem destructor_joins_the_thread_first :
  forall (env : Env) (app : BitcoinApplication.t),
    let r := destroy env app in
    count deletes_model (trace r) = 0%nat /\
    (coreThread app = true ->
     hd_error (trace r) = Some (Emit stopThread_sig) /\
     count is_delete (until is_thread_wait (trace r)) = 0%nat /\
     (throws env CThreadWait <> None -> count is_delete (trace r) = 0%nat)) /\
    (coreThread app = false ->
     count is_stopThread (trace r) = 0%nat /\
     count is_thread_wait (trace r) = 0%nat) /\
    (count is_delete (until (is_delete_of OOptionsModel) (trace r))
     + count (is_delete_of OOptionsModel) (trace r)
     = count is_delete (trace r))%nat /\
    (count is_settings_clear (trace r)
     <= if optionsModel app && resetSettings env then 1 else 0)%nat /\
    (quiet env ->
     outcome r = Ret tt /\
     count is_settings_clear (trace r)
       = (if optionsModel app && resetSettings env then 1 else 0)%nat /\
     window (final r) = false /\ optionsModel (final r) = false /\
     pollShutdownTimer (final r) = pollShutdownTimer app /\
     count is_delete (trace (destroy env (final r))) = 0%nat).
Proof.
  intros env app r.
  assert (Hr : r = destroy env app) by reflexivity. clearbody r.
  destruct app as [ct om cm w pt sm ps wm sa rv].
  unfold_app_in Hr.
  run_paths Hr; subst r; cbn;
    (split; [reflexivity|]); (split; [intros Hct|]);
    try discriminate;
    try (repeat split; try reflexivity; try lia; intros; congruence);
    (split; [intros Hct|]); try discriminate;
    try (repeat split; reflexivity);
    (split; [reflexivity|]); (split; [lia|]);
    intros Hq; try (rewrite Hq in *; discriminate);
    repeat split; unfold_app; split_paths; reflexivity.
Qed.

Lemma destructor_joins_the_thread_first_witness :
  hd_error (trace (destroy env_init_ok app_started)) = Some (Emit stopThread_sig) /\
  count is_delete (trace (destroy env_init_ok
                            (final (destroy env_init_ok app_started)))) = 0%nat.
Proof.
  destruct (destructor_joins_the_thread_first env_init_ok app_started)
    as (_ & Hjoin & _ & _ & _ & Hquiet).
  split.
  - apply Hjoin. reflexivity.
  - apply Hquiet. intros c. reflexivity.
Defined.

Lemma initializeResult_builds env retval app :
  quiet env -> window app = true ->
  (ENABLE_WALLET env = true -> paymentServer app = true) ->
  clientModel app = false -> walletModel app = false ->
  let r := initializeResult env retval app in
  outcome r = Ret tt /\
  shutdownAllowed (final r) = true /\
  window (final r) = true /\
  pollShutdownTimer (final r) = pollShutdownTimer app /\
  count is_new_clientModel (trace r)
    = (if clientModel (final r) then 1 else 0)%nat /\
  count is_new_walletModel (trace r)
    = (if ENABLE_WALLET env && walletModel (final r) then 1 else 0)%nat /\
  walletModel (final r) = ENABLE_WALLET env && walletModel (final r) /\
  count (is_delete_of OClientModel) (trace r) = 0%nat /\
  count (is_delete_of OWalletModel) (trace r) = 0%nat.
Proof.
  intros Hq Hw Hps Hcm Hwm r.
  assert (Hr : r = initializeResult env retval app) by reflexivity. clearbody r.
  destruct app as [ct om cm w pt sm ps wm sa rv].
  cbn in Hw, Hps, Hcm, Hwm. subst w cm wm.
  unfold_app_in Hr.
  destruct (ENABLE_WALLET env) eqn:Hwallet.
  - rewrite (Hps eq_refl) in Hr. run_paths Hr; subst r; repeat split.
  - run_paths Hr; subst r; repeat split.
Qed.

Lemma requestShutdown_deletes env fuel events app running :
  quiet env -> shutdownAllowed app = true ->
  window app = true -> pollShutdownTimer app = Some running ->
  let r := requestShutdown env fuel events app in
  outcome r = Ret tt /\
  count (is_delete_of OClientModel) (trace r)
    = (if clientModel app then 1 else 0)%nat /\
  count (is_delete_of OWalletModel) (trace r)
    = (if ENABLE_WALLET env && walletModel app then 1 else 0)%nat /\
  count is_new_clientModel (trace r) = 0%nat /\
  count is_new_walletModel (trace r) = 0%nat /\
  clientModel (final r) = false /\
  walletModel (final r) = (if ENABLE_WALLET env then false else walletModel app).
Proof.
  intros Hq Hgate Hw Ht r.
  assert (Hr : r = requestShutdown env fuel events app) by reflexivity.
  clearbody r. unfold requestShutdown in Hr.
  erewrite bind_ret_run in Hr by (apply wait_passes_open_gate; exact Hgate).
  destruct app as [ct om cm w pt sm ps wm sa rv]. cbn in Hgate, Hw, Ht. subst w pt sa.
  unfold_app_in Hr. run_paths Hr; subst r; cbn; repeat split.
Qed.

(** X19: what [initializeResult] builds, [requestShutdown] deletes.
    Starting without models, whatever the init outcome was and whether or
    not a shutdown had been requested, a shutdown request that finds the
    gate open deletes each model exactly as often as it was constructed,
    and leaves both model pointers null. *)
Theorem every_model_built_is_deleted :
  forall (env : Env) (retval : Z) (fuel : nat)
         (events : list (M BitcoinApplication.t unit))
         (app : BitcoinApplication.t) (running : bool),
    quiet env -> window app = true -> pollShutdownTimer app = Some running ->
    (ENABLE_WALLET env = true -> paymentServer app = true) ->
    clientModel app = false -> walletModel app = false ->
    let r1 := initializeResult env retval app in
    let r2 := requestShutdown env fuel events (final r1) in
    outcome r1 = Ret tt /\ outcome r2 = Ret tt /\
    count is_new_clientModel (trace r1 ++ trace r2)
      = count (is_delete_of OClientModel) (trace r1 ++ trace r2) /\
    count is_new_walletModel (trace r1 ++ trace r2)
      = count (is_delete_of OWalletModel) (trace r1 ++ trace r2) /\
    clientModel (final r2) = false /\ walletModel (final r2) = false.
Proof.
  intros env retval fuel events app running Hq Hw Ht Hps Hcm Hwm r1 r2.
  destruct (initializeResult_builds env retval app Hq Hw Hps Hcm Hwm)
    as (Ho1 & Hgate & Hw1 & Ht1 & Hnc & Hnw & Hwal & Hd1c & Hd1w).
  fold r1 in Ho1, Hgate, Hw1, Ht1, Hnc, Hnw, Hwal, Hd1c, Hd1w.
  rewrite Ht in Ht1.
  destruct (requestShutdown_deletes env fuel events (final r1) running
              Hq Hgate Hw1 Ht1) as (Ho2 & Hdc & Hdw & Hn2c & Hn2w & Hc2 & Hw2).
  fold r2 in Ho2, Hdc, Hdw, Hn2c, Hn2w, Hc2, Hw2.
  rewrite !count_app.
  split; [exact Ho1|]. split; [exact Ho2|].
  split; [lia|]. split; [lia|]. split; [exact Hc2|].
  rewrite Hw2. destruct (ENABLE_WALLET env); [reflexivity|].
  rewrite Hwal. reflexivity.
Qed.

Lemma every_model_built_is_deleted_witness :
  count is_new_walletModel
    (trace (initializeResult env_init_ok 1 app_started)
     ++ trace (requestShutdown env_init_ok 0 []
                 (final (initializeResult env_init_ok 1 app_started))))
  = count (is_delete_of OWalletModel)
      (trace (initializeResult env_init_ok 1 app_started)
       ++ trace (requestShutdown env_init_ok 0 []
                   (final (initializeResult env_init_ok 1 app_started)))).
Proof.
  apply (every_model_built_is_deleted env_init_ok 1 0 [] app_started true);
    try reflexivity.
  intros c. reflexivity.
Defined.

End ControllerMore.

(** ** More on main *)

Section MainMore.
Import BitcoinApplication.

(** X14: [rpcShow] answers 0 only when the wallet is built in, a running
    instance acknowledged "nbx:show" and this process is initialised; 3
    without wallet support, 2 when nobody answered, 1 when somebody
    answered but this process is not initialised.  With the wallet built in
    the command is sent exactly once whatever [appInitialized] is, and the
    state is left alone. *)
Theorem rpcShow_codes :
  forall (S : Type) (env : Env) (appInitialized : bool) (s : S),
    throws env (CIpcSendCommand "nbx:show") = None ->
    let r := rpcShow env appInitialized s in
    outcome r
    = Ret (if negb (ENABLE_WALLET env) then 3
           else if negb (ipcSendCommand env "nbx:show") then 2
           else if negb appInitialized then 1 else 0) /\
    (outcome r = Ret 0 <->
     ENABLE_WALLET env = true /\ ipcSendCommand env "nbx:show" = true /\
     appInitialized = true) /\
    count is_probe (trace r) = (if ENABLE_WALLET env then 1 else 0)%nat /\
    final r = s.
Proof.
  intros S env init s Hsend. unfold rpcShow, bind, call, log, ret, halt.
  destruct (ENABLE_WALLET env); cbn.
  - rewrite Hsend. cbn.
    destruct (ipcSendCommand env "nbx:show"), init; cbn;
      repeat split; try discriminate; try reflexivity;
      intros (? & ? & ?); discriminate.
  - repeat split; try discriminate. intros (? & ? & ?); discriminate.
Qed.

Lemma rpcShow_codes_witness :
  outcome (rpcShow env_second_instance false tt) = Ret 1.
Proof.
  apply (rpcShow_codes unit env_second_instance false tt). reflexivity.
Defined.

End MainMore.

Section MainMore2.
Import BitcoinApplication.

(** Runs [main] on [H : r = main ...] as far as the hypotheses decide its
    tests; the guarded GUI block stays folded. *)
Ltac next_main_test H :=
  let T := type of H in
  match goal with
  | Hq : quiet_but_config ?e |- _ =>
      match T with
      | context [throws e ?c] => rewrite (Hq c ltac:(discriminate)) in H
      end
  | _ => next_test_in H
  end.

Ltac run_main H :=
  unfold main, main_datadir, main_ipc_and_gui, destroy in H;
  unfold_app_in H;
  repeat (cbn -[main_gui createSplashScreen] in H; next_main_test H);
  cbn -[main_gui createSplashScreen] in H.

(** X15: the ways [main] gives up before it builds anything, when no call
    raises: exit code 1 for a help option (the data directory is not even
    asked for), 0 when the user cancels the data directory dialog, 1 after
    an error box when the data directory is missing or the network
    options contradict each other, 0 after an error box when
    masternode.conf cannot be read. *)
Theorem main_gives_up_early :
  forall (env : Env) (loop : list (M BitcoinApplication.t unit)),
    quiet env ->
    let r := main env loop new in
    (help_requested env = true ->
     gave_up r 1 0 /\ count picks_datadir (trace r) = 0%nat) /\
    (help_requested env = false -> pickDataDirectory env = false ->
     gave_up r 0 0) /\
    (help_requested env = false -> pickDataDirectory env = true ->
     is_directory env = false ->
     gave_up r 1 1) /\
    (help_requested env = false -> pickDataDirectory env = true ->
     is_directory env = true -> SelectParamsFromCommandLine env = false ->
     gave_up r 1 1) /\
    (help_requested env = false -> pickDataDirectory env = true ->
     is_directory env = true -> SelectParamsFromCommandLine env = true ->
     ENABLE_WALLET env = true -> masternodeConfig_read env = false ->
     gave_up r 0 1).
Proof.
  intros env loop Hq r.
  assert (Hr : r = main env loop new) by reflexivity. clearbody r.
  unfold help_requested, gave_up.
  repeat split; intros;
    run_main Hr; subst r; reflexivity.
Qed.

Lemma main_gives_up_early_witness :
  outcome (main env_help [] new) = Ret 1.
Proof.
  assert (Hq : quiet env_help) by (intros c; reflexivity).
  destruct (main_gives_up_early env_help [] Hq) as ((Hgave & _) & _).
  - reflexivity.
  - exact (proj1 Hgave).
Defined.

(** X16: a configuration file that does not parse ends [main] with exit
    code 0 after one error box when [ReadConfigFile] raised a
    [std::exception]; any other exception is not caught there and leaves
    [main], with no box shown. *)
Theorem config_errors_in_main :
  forall (env : Env) (loop : list (M BitcoinApplication.t unit)),
    quiet_but_config env ->
    help_requested env = false -> pickDataDirectory env = true ->
    is_directory env = true ->
    let r := main env loop new in
    (forall what, throws env CReadConfigFile = Some (StdException what) ->
                  gave_up r 0 1) /\
    (throws env CReadConfigFile = Some OtherException ->
     outcome r = Halt (Thrown OtherException) /\
     count is_error_dialog (trace r) = 0%nat /\
     count creates_component (trace r) = 0%nat).
Proof.
  intros env loop Hq Hhelp Hpick Hdir r.
  assert (Hr : r = main env loop new) by reflexivity. clearbody r.
  unfold help_requested in Hhelp. unfold gave_up.
  split; [intros what Hconf|intros Hconf];
    run_main Hr; subst r; repeat split.
Qed.

Lemma config_errors_in_main_witness :
  outcome (main env_bad_config [] new) = Ret 0.
Proof.
  assert (Hq : quiet_but_config env_bad_config).
  { intros c Hc. destruct c; try reflexivity. contradiction. }
  destruct (config_errors_in_main env_bad_config [] Hq eq_refl eq_refl eq_refl)
    as [Hstd _].
  exact (proj1 (Hstd "parse error" eq_refl)).
Defined.

(** X17: when the command line was handed over to a running instance
    ([ipcSendCommandLine] answers true), the process exits with code 0 at
    once: no "nbx:show" probe is sent, no payment server, options model,
    window or thread is created, and no error box is shown. *)
Theorem handed_over_command_line_exits :
  forall (env : Env) (loop : list (M BitcoinApplication.t unit)),
    quiet env ->
    help_requested env = false -> pickDataDirectory env = true ->
    is_directory env = true -> SelectParamsFromCommandLine env = true ->
    ENABLE_WALLET env = true -> masternodeConfig_read env = true ->
    ipcSendCommandLine env = true ->
    let r := main env loop new in
    outcome r = Halt (ProcessExit 0) /\
    count is_probe (trace r) = 0%nat /\
    count creates_component (trace r) = 0%nat /\
    count is_error_dialog (trace r) = 0%nat /\
    final r = new.
Proof.
  intros env loop Hq Hhelp Hpick Hdir Hsel Hwallet Hmn Hipc r.
  assert (Hr : r = main env loop new) by reflexivity. clearbody r.
  unfold help_requested in Hhelp.
  run_main Hr; subst r; repeat split.
Qed.

Lemma handed_over_command_line_exits_witness :
  outcome (main env_uri_handed_over [] new) = Halt (ProcessExit 0).
Proof.
  apply (handed_over_command_line_exits env_uri_handed_over []);
    try reflexivity.
  intros c. reflexivity.
Defined.

(** X18: no exception leaves the guarded GUI block of [main], provided the
    error box and [QCoreApplication::exit] do not raise.  Whatever
    [createWindow], [requestInitialize] or a slot run inside [app.exec()]
    raises is printed for thread "main" and shown in the error box; the
    handler then asks the event loop to leave with [EXIT_FAILURE] and
    returns, so the block ends normally and [main] goes on to its
    [return app.getReturnValue()].  A block that does not raise is left as
    it is. *)
Theorem gui_exceptions_end_in_the_error_dialog :
  forall (env : Env) (loop : list (M BitcoinApplication.t unit))
         (app : BitcoinApplication.t),
    (forall m, throws env (CShowErrorMessage m) = None) ->
    throws env (CApplicationExit EXIT_FAILURE) = None ->
    let body := gui_block env loop app in
    let r := main_gui env loop app in
    (forall e, outcome r <> Halt (Thrown e)) /\
    (forall e, outcome body = Halt (Thrown e) ->
       r = mkRun (trace body
                    ++ [PrintExceptionContinue (exception_ptr e) "main";
                        Call (CShowErrorMessage
                                (strMiscWarning env (exception_ptr e) "main"));
                        Call (CApplicationExit EXIT_FAILURE)])
                 (final body) (Ret tt)) /\
    ((forall e, outcome body <> Halt (Thrown e)) -> r = body).
Proof.
  intros env loop app Hshow Hexit body r.
  assert (Hr : r = try_catch (gui_block env loop)
                     (fun e =>
                        log (PrintExceptionContinue (exception_ptr e) "main") ;;
                        handleRunawayException env
                          (strMiscWarning env (exception_ptr e) "main")) app)
    by reflexivity.
  clearbody r. unfold try_catch in Hr. fold body in Hr.
  destruct body as [tr s [a|w]] eqn:Hbody.
  - subst r. cbn. repeat split; intros; discriminate.
  - destruct w as [e| |code|].
    + unfold handleRunawayException, bind, call, log, halt, ret in Hr.
      rewrite Hshow in Hr. cbn in Hr. rewrite Hexit in Hr. cbn in Hr.
      subst r. cbn.
      repeat split.
      * intros e0. discriminate.
      * intros e0 He0. injection He0 as <-. reflexivity.
      * intros Hno. exfalso. apply (Hno e). reflexivity.
    + subst r. cbn. repeat split; intros; discriminate.
    + subst r. cbn. repeat split; intros; discriminate.
    + subst r. cbn. repeat split; intros; discriminate.
Qed.

Lemma gui_exceptions_end_in_the_error_dialog_witness :
  outcome (main_gui env_timer_throws [] new) = Ret tt.
Proof.
  destruct (gui_exceptions_end_in_the_error_dialog env_timer_throws [] new)
    as (_ & Hraised & _).
  - intros m. reflexivity.
  - reflexivity.
  - rewrite (Hraised (StdException "no timers left")); reflexivity.
Defined.

(** After such an exception [main] returns 0. *)
Example main_after_gui_exception :
  outcome (main env_timer_throws [] new) = Ret 0.
Proof. vm_compute. reflexivity. Qed.

End MainMore2.
